(** * Finance-Advisor: the rule-based advisory engine of [app.py]

    A shallow embedding of the threshold rules of the Streamlit script
    [src/app.py]: the goal-based suggestions ([generate_suggestions]), the
    tax tips ([tax_efficiency_tips]), the market summary of a selected date
    (risk level and diversification tips) and the portfolio builder
    (total allocation, risk score, risk level, expected return, volatility).

    Python's [float] is IEEE 754 binary64, which is Rocq's primitive [float]:
    literals, products, sums, quotients and comparisons below are the very
    operations the script performs.  Python's [int] is [Z], [str] is [string]
    (the UTF-8 bytes of the source literal), a list is a [list].

    The script's variables live in an environment that the blocks of the
    script update in place; the two [def]s work on a local list that they
    fill with [append].  Rendering calls ([st.markdown], [st.metric], charts)
    belong to the presentation layer and are left out, except the status
    boxes of the portfolio builder (the banner that reports whether the
    allocation sums to 100, the risk alert and the tax tips) and its progress
    bar, whose call ends the run when the total is not a percentage. *)

From Stdlib Require Import ZArith List String Bool Lia.
From Stdlib Require Import Floats DecimalString.
Import ListNotations.

#[local] Set Warnings "-inexact-float".
#[local] Open Scope string_scope.
#[local] Open Scope Z_scope.

(** ** Python values *)

Module Py.

(** [x > y] and [x < y] on floats: false as soon as one side is NaN. *)
Definition gt (x y : float) : bool := PrimFloat.ltb y x.
Definition lt (x y : float) : bool := PrimFloat.ltb x y.

(** [m != n] on integers. *)
Definition ne (m n : Z) : bool := negb (m =? n).

(** The conversion [int -> float] that [n * 0.6] performs on its integer
    operand: the nearest binary64 value, ties to even.  It is exact up to
    2^53, so on every slider value; CPython raises OverflowError instead of
    giving an infinity, which takes an integer of more than 1023 bits. *)
Definition float_of_int (n : Z) : float :=
  SF2Prim (binary_normalize prec emax n 0 false).

(** [int * float]: the integer operand is converted first. *)
Definition mul_if (n : Z) (x : float) : float :=
  PrimFloat.mul (float_of_int n) x.

(** [str(n)] for an integer, as an f-string prints it. *)
Definition str (n : Z) : string := NilZero.string_of_int (Z.to_int n).

(** [l.append(x)] *)
Definition append {A} (l : list A) (x : A) : list A := l ++ [x].

(** [not l] for a list: true on the empty list only. *)
Definition not_ {A} (l : list A) : bool :=
  match l with [] => true | _ :: _ => false end.

End Py.

Arguments Py.gt : simpl never.
Arguments Py.lt : simpl never.
Arguments Py.mul_if : simpl never.

#[local] Notation "x >? y" := (Py.gt x y) (at level 70, no associativity) : float_scope.
#[local] Notation "x <. y" := (Py.lt x y) (at level 70, no associativity) : float_scope.
#[local] Notation "n *. x" := (Py.mul_if n x) (at level 40, left associativity) : float_scope.

(** ** A state monad for the variables a piece of code assigns *)

Section StateMonad.
Context {S : Type}.

Definition State (A : Type) : Type := S -> A * S.

Definition ret {A} (a : A) : State A := fun s => (a, s).
Definition bind {A B} (m : State A) (k : A -> State B) : State B :=
  fun s => let (a, s') := m s in k a s'.
Definition get : State S := fun s => (s, s).
Definition put (s : S) : State unit := fun _ => (tt, s).
Definition modify (f : S -> S) : State unit := fun s => (tt, f s).
Definition skip : State unit := ret tt.

Definition eval {A} (m : State A) (s : S) : A := fst (m s).
Definition exec {A} (m : State A) (s : S) : S := snd (m s).
End StateMonad.

Arguments State : clear implicits.

Declare Scope state_scope.
Delimit Scope state_scope with state.
Notation "x <- m ;; k" := (bind m (fun x => k))
  (at level 61, m at next level, right associativity) : state_scope.
Notation "m ;; k" := (bind m (fun _ => k))
  (at level 61, right associativity) : state_scope.
#[local] Open Scope state_scope.

(** ** The two functions of section 7 of the script *)

(** A [def] that builds its answer in one local list.  The body starts by
    binding the list to [[]] and ends by returning it; a call runs the body in
    a frame of its own. *)
Definition Def (A : Type) : Type := State (list string) A.

Definition append (tip : string) : Def unit := modify (fun l => Py.append l tip).
Definition call {A} (body : Def A) : A := eval body [].

Module Tip.
Definition retirement_base :=
  "💼 Contribute regularly to retirement accounts (e.g., 401(k), IRA).".
Definition retirement_inflation :=
  "🛡️ Use inflation-protected assets like TIPS and dividend-paying stocks.".
Definition retirement_balanced :=
  "📈 Consider a balanced mix of stocks and bonds.".
Definition home_base :=
  "🏠 Start or grow a high-yield savings account for your down payment.".
Definition home_rates_high :=
  "⏳ Mortgage rates are high—consider delaying purchase or locking rates now.".
Definition home_rates_low :=
  "✅ Low rates—evaluate mortgage options and affordability.".
Definition growth_base :=
  "🚀 Focus on long-term growth assets like ETFs, tech stocks, or index funds.".
Definition growth_strong :=
  "🌱 Strong economy supports aggressive growth investing.".
Definition growth_diversify :=
  "🔍 Diversify with stable sectors (e.g., healthcare, utilities) for balance.".
Definition placeholder :=
  "Select a goal to see personalized tips.".

Definition capital_gains :=
  "Consider holding stocks long-term (over 1 year) to benefit from lower capital gains tax rates.".
Definition municipal_bonds :=
  "Municipal bonds generate tax-free income at the federal level. Good choice!".
Definition high_turnover :=
  "Consider moving high-turnover funds to tax-advantaged accounts (like an IRA) to avoid annual tax drag.".
Definition tax_efficient :=
  "Your portfolio looks tax-efficient. Remember to consult a tax professional.".

Definition inflation_hedge :=
  "Inflation was high. Consider assets like gold and real estate to hedge.".
Definition equities :=
  "Strong GDP growth detected. Equities may have been a good investment.".
Definition stable_market :=
  "Market conditions appear stable. A balanced portfolio is recommended.".
End Tip.

(** [generate_suggestions(goal, gdp, inflation, unemployment, interest_rate)],
    lines 138-165. *)
Definition generate_suggestions_body
    (goal : string) (gdp inflation unemployment interest_rate : float)
    : Def (list string) :=
  put [] ;;
  (if (goal =? "Retirement")%string then
     append Tip.retirement_base ;;
     if (inflation >? 4)%float then append Tip.retirement_inflation
     else append Tip.retirement_balanced
   else if (goal =? "Buying a Home")%string then
     append Tip.home_base ;;
     if (interest_rate >? 5)%float then append Tip.home_rates_high
     else append Tip.home_rates_low
   else if (goal =? "Wealth Growth")%string then
     append Tip.growth_base ;;
     if (gdp >? 2)%float && (inflation <. 4)%float then append Tip.growth_strong
     else append Tip.growth_diversify
   else
     append Tip.placeholder) ;;
  get.

Definition generate_suggestions
    (goal : string) (gdp inflation unemployment interest_rate : float)
    : list string :=
  call (generate_suggestions_body goal gdp inflation unemployment interest_rate).

(** A data frame with the columns ["Asset Class"] and ["Allocation %"], one
    pair per row, in row order. *)
Definition DataFrame : Type := list (string * Z).

(** ['name' in alloc_df['Asset Class'].values] *)
Definition has_class (name : string) (alloc_df : DataFrame) : bool :=
  existsb (fun row => (fst row =? name)%string) alloc_df.

(** [alloc_df.loc[alloc_df['Asset Class'] == name, 'Allocation %'].values] *)
Definition allocations_of (name : string) (alloc_df : DataFrame) : list Z :=
  map snd (filter (fun row => (fst row =? name)%string) alloc_df).

(** [name in ... and ....values[0] > bound]: the right operand is evaluated
    only when the class is present, where [values[0]] exists. *)
Definition class_above (name : string) (bound : Z) (alloc_df : DataFrame) : bool :=
  has_class name alloc_df &&
  match allocations_of name alloc_df with
  | v :: _ => v >? bound
  | [] => false
  end.

(** [tax_efficiency_tips(alloc_df)], lines 168-178. *)
Definition tax_efficiency_tips_body (alloc_df : DataFrame) : Def (list string) :=
  put [] ;;
  (if class_above "Stocks" 50 alloc_df then append Tip.capital_gains else skip) ;;
  (if class_above "Municipal Bonds" 0 alloc_df then append Tip.municipal_bonds else skip) ;;
  (if class_above "High Turnover Funds" 10 alloc_df then append Tip.high_turnover else skip) ;;
  tips <- get ;;
  (if Py.not_ tips then append Tip.tax_efficient else skip) ;;
  get.

Definition tax_efficiency_tips (alloc_df : DataFrame) : list string :=
  call (tax_efficiency_tips_body alloc_df).

(** ** The variables of the script and what it shows *)

(** The status boxes of the page: [st.error], [st.warning], [st.success] and
    [st.info], each with its text. *)
Inductive Widget : Type :=
| st_error (body : string)
| st_warning (body : string)
| st_success (body : string)
| st_info (body : string).

(** The module-level variables that tabs 2 and 3 assign.  A rerun of the
    script finds in them whatever an earlier statement left there:
    [risk_level] is written by the market summary and again by the portfolio
    builder. *)
Record Env : Type := mkEnv {
  risk_level : string;
  tips : list string;
  total_alloc : Z;
  risk_score : float;
  expected_return : float;
  volatility : float;
  alloc_df : DataFrame
}.

Definition Script (A : Type) : Type := State Env A.

Definition set_risk_level (v : string) : Script unit :=
  modify (fun e => mkEnv v (tips e) (total_alloc e) (risk_score e)
                         (expected_return e) (volatility e) (alloc_df e)).
Definition set_tips (v : list string) : Script unit :=
  modify (fun e => mkEnv (risk_level e) v (total_alloc e) (risk_score e)
                         (expected_return e) (volatility e) (alloc_df e)).
Definition set_total_alloc (v : Z) : Script unit :=
  modify (fun e => mkEnv (risk_level e) (tips e) v (risk_score e)
                         (expected_return e) (volatility e) (alloc_df e)).
Definition set_risk_score (v : float) : Script unit :=
  modify (fun e => mkEnv (risk_level e) (tips e) (total_alloc e) v
                         (expected_return e) (volatility e) (alloc_df e)).
Definition set_expected_return (v : float) : Script unit :=
  modify (fun e => mkEnv (risk_level e) (tips e) (total_alloc e) (risk_score e)
                         v (volatility e) (alloc_df e)).
Definition set_volatility (v : float) : Script unit :=
  modify (fun e => mkEnv (risk_level e) (tips e) (total_alloc e) (risk_score e)
                         (expected_return e) v (alloc_df e)).
Definition set_alloc_df (v : DataFrame) : Script unit :=
  modify (fun e => mkEnv (risk_level e) (tips e) (total_alloc e) (risk_score e)
                         (expected_return e) (volatility e) v).

(** Reading a variable. *)
Definition read {A} (var : Env -> A) : Script A := fun e => (var e, e).

(** [tips.append(tip)] on the module-level list. *)
Definition tips_append (tip : string) : Script unit :=
  l <- read tips ;; set_tips (Py.append l tip).

(** ** Tab 2: market summary of the selected date *)

(** Risk indicator, lines 243-247. *)
Definition market_risk (inflation unemployment interest_rate : float) : Script unit :=
  set_risk_level "Moderate" ;;
  if (inflation >? 5)%float || (unemployment >? 8)%float || (interest_rate >? 6)%float
  then set_risk_level "High"
  else if (inflation <. 2)%float && (unemployment <. 5)%float && (interest_rate <. 3)%float
  then set_risk_level "Low"
  else skip.

(** Diversification tips, lines 251-257. *)
Definition diversification (inflation gdp_growth : float) : Script unit :=
  set_tips [] ;;
  (if (inflation >? 3.0)%float then tips_append Tip.inflation_hedge else skip) ;;
  (if (gdp_growth >? 2.5)%float then tips_append Tip.equities else skip) ;;
  l <- read tips ;;
  if Py.not_ l then tips_append Tip.stable_market else skip.

Definition market_summary
    (inflation gdp_growth unemployment interest_rate : float) : Script unit :=
  market_risk inflation unemployment interest_rate ;;
  diversification inflation gdp_growth.

(** ** Tab 3: portfolio builder *)

(** The ladder of line 286, with the labels the script uses. *)
Definition portfolio_level (score : float) : string :=
  if (score >? 0.4)%float then "High"
  else if (score >? 0.15)%float then "Medium" else "Low".

(** The banner of lines 279-282. *)
Definition allocation_banner (total_alloc : Z) : Widget :=
  if Py.ne total_alloc 100
  then st_error ("Total allocation is " ++ Py.str total_alloc ++ "%. It must sum to 100%.")
  else st_success "Total allocation is 100%.".

(** The risk alert of lines 299-304. *)
Definition risk_alert (risk_score : float) : Widget :=
  if (risk_score >? 0.4)%float then
    st_error "⚠️ High Risk Alert: Your portfolio allocation is aggressive and may see high volatility."
  else if (risk_score >? 0.15)%float then
    st_warning "⚠️ Moderate Risk: Your portfolio is balanced but carries a moderate level of risk."
  else
    st_success "✅ Low Risk: Your portfolio is conservative and prioritizes capital preservation.".

(** How a block of the script ends: it runs to its end and has shown its
    boxes, or a call raises and the run ends there. *)
Inductive Completion (A : Type) : Type :=
| Returned (a : A)
| Raised (exception : string).

Arguments Returned {A} a.
Arguments Raised {A} exception.

(** [st.progress(value)] with an integer, line 276: Streamlit draws the bar
    for a value from 0 to 100 and raises [StreamlitAPIException] for any
    other. *)
Definition progress_accepts (value : Z) : bool := (0 <=? value) && (value <=? 100).

(** The status boxes a block has shown; the progress bar comes before all of
    them, so none is shown when its call raises. *)
Definition boxes (c : Completion (list Widget)) : list Widget :=
  match c with
  | Returned shown => shown
  | Raised _ => []
  end.

(** The data frame of lines 307-310. *)
Definition make_alloc_df (stocks bonds real_estate cash : Z) : DataFrame :=
  combine ["Stocks"; "Bonds"; "Real Estate"; "Cash"] [stocks; bonds; real_estate; cash].

(** Lines 274-323, for the slider values [stocks], [bonds], [real_estate] and
    [cash]; the result is the list of status boxes shown, in page order, unless
    the progress bar of line 276 raises: then the run ends with [total_alloc]
    assigned and nothing else done. *)
Definition portfolio_builder (stocks bonds real_estate cash : Z)
    : Script (Completion (list Widget)) :=
  set_total_alloc (stocks + bonds + real_estate + cash) ;;
  total <- read total_alloc ;;
  if negb (progress_accepts total) then ret (Raised "StreamlitAPIException") else
  let banner := allocation_banner total in
  set_risk_score
    ((stocks *. 0.6 + real_estate *. 0.3 - bonds *. 0.4 - cash *. 0.5) / 100)%float ;;
  score <- read risk_score ;;
  set_risk_level (portfolio_level score) ;;
  set_expected_return
    ((stocks *. 0.08 + bonds *. 0.03 + real_estate *. 0.06 + cash *. 0.02) / 100)%float ;;
  set_volatility
    ((stocks *. 0.15 + bonds *. 0.05 + real_estate *. 0.1 + cash *. 0.01) / 100)%float ;;
  score <- read risk_score ;;
  let alert := risk_alert score in
  set_alloc_df (make_alloc_df stocks bonds real_estate cash) ;;
  df <- read alloc_df ;;
  ret (Returned ([banner; alert] ++ map st_info (tax_efficiency_tips df))%list).

(** The validity flag the page reports: the banner is the success box. *)
Definition is_valid (shown : list Widget) : bool :=
  match shown with
  | st_success _ :: _ => true
  | _ => false
  end.

(** The variables the portfolio builder assigns. *)
Definition portfolio_outputs (e : Env)
    : Z * float * string * float * float * DataFrame :=
  (total_alloc e, risk_score e, risk_level e, expected_return e, volatility e, alloc_df e).

(** The formulas in the order the specification writes them: the weight
    first, the percentage second. *)
Module Spec.
Definition riskScore (stocks bonds realEstate cash : Z) : float :=
  ((0.6 * Py.float_of_int stocks + 0.3 * Py.float_of_int realEstate
    - 0.4 * Py.float_of_int bonds - 0.5 * Py.float_of_int cash) / 100)%float.
Definition expectedReturn (stocks bonds realEstate cash : Z) : float :=
  ((0.08 * Py.float_of_int stocks + 0.03 * Py.float_of_int bonds
    + 0.06 * Py.float_of_int realEstate + 0.02 * Py.float_of_int cash) / 100)%float.
Definition volatility (stocks bonds realEstate cash : Z) : float :=
  ((0.15 * Py.float_of_int stocks + 0.05 * Py.float_of_int bonds
    + 0.10 * Py.float_of_int realEstate + 0.01 * Py.float_of_int cash) / 100)%float.
End Spec.

(** An environment to start from. *)
Definition env0 : Env := mkEnv "" [] 0 0%float 0%float 0%float [].

(** ** What the proofs below use *)

(** The goals the sidebar offers, line 117. *)
Definition goal_options : list string :=
  ["Retirement"; "Buying a Home"; "Wealth Growth"; "Short-Term Savings";
   "Capital Preservation"].

(** The goals [generate_suggestions] has a branch for. *)
Definition advised_goals : list string :=
  ["Retirement"; "Buying a Home"; "Wealth Growth"].

(** Order on positive binary64 numbers given by mantissa and exponent, as
    [SFcompare] reads it: a smaller exponent, or the same exponent and a
    mantissa that is not larger. *)
Definition sf_leb (ma : positive) (ea : Z) (mb : positive) (eb : Z) : bool :=
  (ea <? eb) || ((ea =? eb) && (ma <=? mb)%positive).

(** ** Authentication, lines 21-35 *)

(** The dictionary [users] of line 21, in insertion order. *)
Definition users : list (string * string) := [("admin", "123#"); ("user", "123*")].

(** The value a dictionary holds under [key], if it holds one. *)
Definition dict_get (key : string) (d : list (string * string)) : option string :=
  option_map snd (find (fun kv => (fst kv =? key)%string) d).

(** [username in users and users[username] == password] *)
Definition credentials_ok (username password : string) : bool :=
  match dict_get username users with
  | Some stored => (stored =? password)%string
  | None => false
  end.

(** [st.session_state]: the value under the key ["authenticated"], [None]
    while the key is absent.  It outlives the runs of the script. *)
Definition Session : Type := option bool.

(** How a run of the script leaves the login block: it goes on to the page,
    it stops after the boxes it showed ([st.stop()]), or it asks for a rerun
    ([st.rerun()]). *)
Inductive Outcome : Type :=
| Proceed
| Stopped (shown : list Widget)
| Rerun.

Definition login_error : string :=
  "Invalid username or password (Demo: user=admin, pass=123#)".

(** Lines 22-35 for the two text inputs and the state of the Login button. *)
Definition login_gate (username password : string) (clicked : bool)
    : State Session Outcome :=
  s <- get ;;
  (match s with None => put (Some false) | Some _ => skip end) ;;
  s <- get ;;
  match s with
  | Some true => ret Proceed
  | _ =>
      if clicked then
        if credentials_ok username password
        then put (Some true) ;; ret Rerun
        else ret (Stopped [st_error login_error])
      else ret (Stopped [])
  end.

(** One interaction of the user: a run of the script and, when the run asks
    for it, the rerun, in which the button is released. *)
Definition visit (username password : string) (clicked : bool)
    : State Session Outcome :=
  o <- login_gate username password clicked ;;
  match o with
  | Rerun => login_gate username password false
  | _ => ret o
  end.

(** Interactions one after the other, on the same session. *)
Fixpoint visits (l : list (string * string * bool)) : State Session (list Outcome) :=
  match l with
  | [] => ret []
  | (username, password, clicked) :: l' =>
      o <- visit username password clicked ;;
      os <- visits l' ;;
      ret (o :: os)
  end.

(** An interaction that logs in: the button is pressed on a pair that
    [users] holds. *)
Definition logs_in (i : string * string * bool) : bool :=
  let '(username, password, clicked) := i in
  clicked && credentials_ok username password.

(** ** Tabs 2 and 3 in one run, and the report *)

(** The market summary and then the portfolio builder, as one run of the
    script executes them; when the portfolio builder raises the run ends
    there, before the report of tab 4. *)
Definition tabs_2_3
    (inflation gdp_growth unemployment interest_rate : float)
    (stocks bonds real_estate cash : Z) : Script (Completion (list Widget)) :=
  market_summary inflation gdp_growth unemployment interest_rate ;;
  portfolio_builder stocks bonds real_estate cash.

(** The line of the report that gives the risk level, line 357, in a run
    that reaches tab 4. *)
Definition report_risk_line (e : Env) : string := "- Risk Level: " ++ risk_level e.

(** ** The allocations that sum to 100 *)

(** The ladder of line 286 without rounding: the risk score is above 0.4
    when [6*stocks + 3*real_estate - 4*bonds - 5*cash] is above 400, and
    above 0.15 when it is above 150. *)
Definition exact_level (stocks bonds real_estate cash : Z) : string :=
  let n := 6 * stocks + 3 * real_estate - 4 * bonds - 5 * cash in
  if n >? 400 then "High" else if n >? 150 then "Medium" else "Low".

(** The three quantities of lines 285-288 from the floats of the sliders. *)
Definition risk_score_of (stocks bonds real_estate cash : float) : float :=
  ((stocks * 0.6 + real_estate * 0.3 - bonds * 0.4 - cash * 0.5) / 100)%float.
Definition expected_return_of (stocks bonds real_estate cash : float) : float :=
  ((stocks * 0.08 + bonds * 0.03 + real_estate * 0.06 + cash * 0.02) / 100)%float.
Definition volatility_of (stocks bonds real_estate cash : float) : float :=
  ((stocks * 0.15 + bonds * 0.05 + real_estate * 0.1 + cash * 0.01) / 100)%float.

(** The floats of the slider values 0, 1, ..., 100. *)
Definition slider_floats : list float :=
  [
   0; 1; 2; 3; 4; 5; 6; 7; 8; 9; 10; 11; 12; 13; 14; 15; 16; 17; 18; 19;
   20; 21; 22; 23; 24; 25; 26; 27; 28; 29; 30; 31; 32; 33; 34; 35; 36;
   37; 38; 39; 40; 41; 42; 43; 44; 45; 46; 47; 48; 49; 50; 51; 52; 53;
   54; 55; 56; 57; 58; 59; 60; 61; 62; 63; 64; 65; 66; 67; 68; 69; 70;
   71; 72; 73; 74; 75; 76; 77; 78; 79; 80; 81; 82; 83; 84; 85; 86; 87;
   88; 89; 90; 91; 92; 93; 94; 95; 96; 97; 98; 99; 100
  ]%float.

Definition slider_float (n : nat) : float := nth n slider_floats 0%float.

(** A test on every allocation of natural numbers that sums to 100. *)
Definition forall_valid (P : nat -> nat -> nat -> nat -> bool) : bool :=
  forallb (fun s =>
    forallb (fun b =>
      forallb (fun r => P s b r (100 - s - b - r)%nat)
              (seq 0 (101 - s - b)))
            (seq 0 (101 - s)))
          (seq 0 101).

(** The two tests the proofs run on them. *)
Definition bounds_check (s b r c : nat) : bool :=
  let fs := slider_float s in
  let fb := slider_float b in
  let fr := slider_float r in
  let fc := slider_float c in
  (PrimFloat.leb (-0.5) (risk_score_of fs fb fr fc) &&
   PrimFloat.leb (risk_score_of fs fb fr fc) 0.6 &&
   PrimFloat.leb 0.02 (expected_return_of fs fb fr fc) &&
   PrimFloat.leb (expected_return_of fs fb fr fc) 0.08 &&
   PrimFloat.leb 0.01 (volatility_of fs fb fr fc) &&
   PrimFloat.leb (volatility_of fs fb fr fc) 0.15)%float.

Definition rounding_check (s b r c : nat) : bool :=
  let n := 6 * Z.of_nat s + 3 * Z.of_nat r - 4 * Z.of_nat b - 5 * Z.of_nat c in
  (n =? 150) || (n =? 400) ||
  (portfolio_level
     (risk_score_of (slider_float s) (slider_float b) (slider_float r) (slider_float c))
   =? exact_level (Z.of_nat s) (Z.of_nat b) (Z.of_nat r) (Z.of_nat c))%string.

(** * Properties *)

(** ** Running the blocks *)

(** What the risk indicator leaves in [risk_level]: the first rule that
    fires decides, and [Moderate] is what stays when none does. *)
Lemma market_risk_level (e : Env) (inflation unemployment interest_rate : float) :
  risk_level (exec (market_risk inflation unemployment interest_rate) e) =
  if (inflation >? 5)%float || (unemployment >? 8)%float || (interest_rate >? 6)%float
  then "High"
  else if (inflation <. 2)%float && (unemployment <. 5)%float && (interest_rate <. 3)%float
  then "Low"
  else "Moderate".
Proof.
  unfold market_risk, exec, bind, set_risk_level, modify, skip, ret; cbn.
  destruct (_ || _); [reflexivity|].
  destruct (_ && _); reflexivity.
Qed.

(** The list the diversification rules leave in [tips]. *)
Lemma diversification_tips (e : Env) (inflation gdp_growth : float) :
  tips (exec (diversification inflation gdp_growth) e) =
  match (inflation >? 3.0)%float, (gdp_growth >? 2.5)%float with
  | true, true => [Tip.inflation_hedge; Tip.equities]
  | true, false => [Tip.inflation_hedge]
  | false, true => [Tip.equities]
  | false, false => [Tip.stable_market]
  end.
Proof.
  unfold diversification.
  destruct (inflation >? 3.0)%float, (gdp_growth >? 2.5)%float; reflexivity.
Qed.

(** The three diversification tips are three different texts. *)
Lemma diversification_tips_distinct :
  Tip.inflation_hedge <> Tip.equities /\
  Tip.inflation_hedge <> Tip.stable_market /\
  Tip.equities <> Tip.stable_market.
Proof. repeat split; discriminate. Qed.

(** ** RiskClassifier *)

(** C1: the market risk level is total and first-match ordered.  From any
    environment and for every triple of floats the indicator leaves one of
    ["Low"], ["Moderate"], ["High"] (three different values) in [risk_level]:
    ["High"] as soon as [inflation > 5], [unemployment > 8] or
    [interest_rate > 6] holds, whatever the low tests say; ["Low"] when none
    of them holds and the three low tests all hold; ["Moderate"] otherwise.
    At (6, 1, 1) the level is ["High"]. *)
Theorem market_risk_first_match :
  forall (e : Env) (inflation unemployment interest_rate : float),
    let level := risk_level (exec (market_risk inflation unemployment interest_rate) e) in
    let high :=
      (inflation >? 5)%float || (unemployment >? 8)%float || (interest_rate >? 6)%float in
    let low :=
      (inflation <. 2)%float && (unemployment <. 5)%float && (interest_rate <. 3)%float in
    (level = "Low" \/ level = "Moderate" \/ level = "High") /\
    ("Low" <> "Moderate" /\ "Low" <> "High" /\ "Moderate" <> "High") /\
    (high = true -> level = "High") /\
    (high = false -> low = true -> level = "Low") /\
    (high = false -> low = false -> level = "Moderate") /\
    risk_level (exec (market_risk 6 1 1) e) = "High" /\
    ((6 <. 2)%float = false /\ (1 <. 5)%float = true /\ (1 <. 3)%float = true).
Proof.
  intros e inflation unemployment interest_rate level high low.
  assert (Hlevel : level = if high then "High" else if low then "Low" else "Moderate")
    by apply market_risk_level.
  split; [|split; [|split; [|split; [|split; [|split]]]]].
  - rewrite Hlevel. destruct high; [tauto|]. destruct low; tauto.
  - repeat split; discriminate.
  - intros Hh. now rewrite Hlevel, Hh.
  - intros Hh Hl. now rewrite Hlevel, Hh, Hl.
  - intros Hh Hl. now rewrite Hlevel, Hh, Hl.
  - rewrite market_risk_level. reflexivity.
  - repeat split; reflexivity.
Qed.

(** ** Diversification tips *)

(** C10: from any environment, the inflation-hedge tip is in [tips] exactly
    when [inflation > 3.0], the equities tip exactly when [gdp_growth > 2.5],
    the stable-market tip exactly when neither test holds, and the list is
    never empty. *)
Theorem diversification_tips_rules :
  forall (e : Env) (inflation gdp_growth : float),
    let l := tips (exec (diversification inflation gdp_growth) e) in
    (In Tip.inflation_hedge l <-> (inflation >? 3.0)%float = true) /\
    (In Tip.equities l <-> (gdp_growth >? 2.5)%float = true) /\
    (In Tip.stable_market l <->
       (inflation >? 3.0)%float = false /\ (gdp_growth >? 2.5)%float = false) /\
    l <> [].
Proof.
  intros e inflation gdp_growth l.
  unfold l; rewrite diversification_tips.
  destruct diversification_tips_distinct as (Hie & His & Hes).
  destruct (inflation >? 3.0)%float, (gdp_growth >? 2.5)%float; cbn;
    intuition (congruence || discriminate).
Qed.

(** ** GoalAdvisor *)

(** The body of [generate_suggestions] returns the same list whatever the
    local list held before its first statement. *)
Lemma generate_suggestions_body_eval
    (goal : string) (gdp inflation unemployment interest_rate : float)
    (l : list string) :
  eval (generate_suggestions_body goal gdp inflation unemployment interest_rate) l =
  generate_suggestions goal gdp inflation unemployment interest_rate.
Proof.
  unfold generate_suggestions, call, generate_suggestions_body.
  destruct (goal =? "Retirement")%string.
  { destruct (inflation >? 4)%float; reflexivity. }
  destruct (goal =? "Buying a Home")%string.
  { destruct (interest_rate >? 5)%float; reflexivity. }
  destruct (goal =? "Wealth Growth")%string; [|reflexivity].
  destruct ((gdp >? 2)%float && (inflation <. 4)%float); reflexivity.
Qed.

(** C5: for the goal ["Retirement"] the advice is a list of exactly two tips:
    the retirement-accounts tip first, then the inflation-protection tip when
    [inflation > 4] and the balanced-mix tip otherwise.  With inflation 5 the
    last tip is the inflation-protection one, with inflation 3 the
    balanced-mix one. *)
Theorem retirement_advice :
  forall gdp inflation unemployment interest_rate : float,
    generate_suggestions "Retirement" gdp inflation unemployment interest_rate =
      [Tip.retirement_base;
       if (inflation >? 4)%float then Tip.retirement_inflation
       else Tip.retirement_balanced] /\
    List.length (generate_suggestions "Retirement" gdp inflation unemployment interest_rate)
      = 2%nat /\
    last (generate_suggestions "Retirement" gdp 5 unemployment interest_rate) ""
      = Tip.retirement_inflation /\
    last (generate_suggestions "Retirement" gdp 3 unemployment interest_rate) ""
      = Tip.retirement_balanced /\
    Tip.retirement_inflation <> Tip.retirement_balanced.
Proof.
  intros gdp inflation unemployment interest_rate.
  assert (H : forall i,
             generate_suggestions "Retirement" gdp i unemployment interest_rate =
             [Tip.retirement_base;
              if (i >? 4)%float then Tip.retirement_inflation
              else Tip.retirement_balanced]).
  { intros i. unfold generate_suggestions, call, generate_suggestions_body.
    change ("Retirement" =? "Retirement")%string with true.
    destruct (i >? 4)%float; reflexivity. }
  split; [apply H|].
  split; [now rewrite H|].
  split; [now rewrite H|].
  split; [now rewrite H|discriminate].
Qed.

(** C6: a goal that is none of ["Retirement"], ["Buying a Home"] and
    ["Wealth Growth"] gets the placeholder tip alone, whatever the four
    indicators are; the function is total, so nothing is raised.  The two
    remaining entries of the goal selector are such goals. *)
Theorem other_goals_get_placeholder :
  forall goal : string,
    goal <> "Retirement" -> goal <> "Buying a Home" -> goal <> "Wealth Growth" ->
    forall gdp inflation unemployment interest_rate : float,
      generate_suggestions goal gdp inflation unemployment interest_rate
        = [Tip.placeholder].
Proof.
  intros goal Hr Hb Hw gdp inflation unemployment interest_rate.
  unfold generate_suggestions, call, generate_suggestions_body.
  apply String.eqb_neq in Hr, Hb, Hw.
  rewrite Hr, Hb, Hw. reflexivity.
Qed.

Lemma other_goals_get_placeholder_witness :
  (forall gdp inflation unemployment interest_rate : float,
     generate_suggestions "Short-Term Savings" gdp inflation unemployment interest_rate
       = [Tip.placeholder]) /\
  (forall gdp inflation unemployment interest_rate : float,
     generate_suggestions "Capital Preservation" gdp inflation unemployment interest_rate
       = [Tip.placeholder]) /\
  generate_suggestions "" 0 0 0 0 = [Tip.placeholder].
Proof.
  split; [|split].
  - apply (other_goals_get_placeholder "Short-Term Savings"); discriminate.
  - apply (other_goals_get_placeholder "Capital Preservation"); discriminate.
  - apply (other_goals_get_placeholder ""); discriminate.
Defined.

(** ** Tax tips *)

(** On the frame the portfolio builder makes, the stocks rule tests the
    stocks slider and the two other rules find no row. *)
Lemma class_above_default (stocks bonds real_estate cash : Z) :
  let df := make_alloc_df stocks bonds real_estate cash in
  class_above "Stocks" 50 df = (stocks >? 50) /\
  class_above "Municipal Bonds" 0 df = false /\
  class_above "High Turnover Funds" 10 df = false.
Proof. repeat split. Qed.

(** The body of [tax_efficiency_tips] does not depend on what the local list
    held before. *)
Lemma tax_efficiency_tips_body_eval (df : DataFrame) (l : list string) :
  eval (tax_efficiency_tips_body df) l = tax_efficiency_tips df.
Proof. reflexivity. Qed.

(** Whatever the frame, the capital-gains tip is in the answer as soon as the
    stocks rule fires. *)
Lemma capital_gains_when_stocks_above (df : DataFrame) :
  class_above "Stocks" 50 df = true -> In Tip.capital_gains (tax_efficiency_tips df).
Proof.
  intros H. unfold tax_efficiency_tips, call, tax_efficiency_tips_body.
  rewrite H.
  destruct (class_above "Municipal Bonds" 0 df),
           (class_above "High Turnover Funds" 10 df); cbn; auto.
Qed.

Lemma tax_efficiency_tips_default (stocks bonds real_estate cash : Z) :
  tax_efficiency_tips (make_alloc_df stocks bonds real_estate cash) =
  if stocks >? 50 then [Tip.capital_gains] else [Tip.tax_efficient].
Proof.
  unfold tax_efficiency_tips, call, tax_efficiency_tips_body.
  destruct (class_above_default stocks bonds real_estate cash) as (-> & -> & ->).
  destruct (stocks >? 50); reflexivity.
Qed.

(** C9: on the four default asset classes [tax_efficiency_tips] returns a
    list of exactly one tip: the capital-gains tip when the stocks allocation
    is above 50, the tax-efficient fallback otherwise; at 50 the fallback
    alone; the rules on municipal bonds and high-turnover funds do not fire
    and their tips are never in the list. *)
Theorem tax_tips_default_classes :
  forall stocks bonds real_estate cash : Z,
    let df := make_alloc_df stocks bonds real_estate cash in
    tax_efficiency_tips df =
      (if stocks >? 50 then [Tip.capital_gains] else [Tip.tax_efficient]) /\
    List.length (tax_efficiency_tips df) = 1%nat /\
    tax_efficiency_tips (make_alloc_df 50 bonds real_estate cash) = [Tip.tax_efficient] /\
    class_above "Municipal Bonds" 0 df = false /\
    class_above "High Turnover Funds" 10 df = false /\
    ~ In Tip.municipal_bonds (tax_efficiency_tips df) /\
    ~ In Tip.high_turnover (tax_efficiency_tips df).
Proof.
  intros stocks bonds real_estate cash df. unfold df.
  rewrite !tax_efficiency_tips_default.
  repeat split.
  - destruct (stocks >? 50); reflexivity.
  - destruct (stocks >? 50); cbn; intros [H|[]]; discriminate H.
  - destruct (stocks >? 50); cbn; intros [H|[]]; discriminate H.
Qed.

(** ** AllocationAnalyzer *)

Lemma progress_accepts_iff (value : Z) :
  progress_accepts value = true <-> 0 <= value <= 100.
Proof. unfold progress_accepts. lia. Qed.

(** The environment and the page after the portfolio builder has run, when
    the total is a percentage. *)
Lemma portfolio_builder_exec (e : Env) (stocks bonds real_estate cash : Z) :
  0 <= stocks + bonds + real_estate + cash <= 100 ->
  let score :=
    ((stocks *. 0.6 + real_estate *. 0.3 - bonds *. 0.4 - cash *. 0.5) / 100)%float in
  exec (portfolio_builder stocks bonds real_estate cash) e =
  {| risk_level := portfolio_level score;
     tips := tips e;
     total_alloc := stocks + bonds + real_estate + cash;
     risk_score := score;
     expected_return :=
       ((stocks *. 0.08 + bonds *. 0.03 + real_estate *. 0.06 + cash *. 0.02) / 100)%float;
     volatility :=
       ((stocks *. 0.15 + bonds *. 0.05 + real_estate *. 0.1 + cash *. 0.01) / 100)%float;
     alloc_df := make_alloc_df stocks bonds real_estate cash |}.
Proof.
  intros H. apply progress_accepts_iff in H.
  unfold portfolio_builder, exec, bind, set_total_alloc, read, modify.
  cbn [total_alloc]. rewrite H. reflexivity.
Qed.

Lemma portfolio_builder_eval (e : Env) (stocks bonds real_estate cash : Z) :
  0 <= stocks + bonds + real_estate + cash <= 100 ->
  eval (portfolio_builder stocks bonds real_estate cash) e =
  Returned
    (allocation_banner (stocks + bonds + real_estate + cash)
     :: risk_alert
          ((stocks *. 0.6 + real_estate *. 0.3 - bonds *. 0.4 - cash *. 0.5) / 100)%float
     :: map st_info (tax_efficiency_tips (make_alloc_df stocks bonds real_estate cash))).
Proof.
  intros H. apply progress_accepts_iff in H.
  unfold portfolio_builder, eval, bind, set_total_alloc, read, modify.
  cbn [total_alloc]. rewrite H. reflexivity.
Qed.

(** When the total is not a percentage the progress bar raises: the run ends
    with [total_alloc] assigned and every other variable as it was. *)
Lemma portfolio_builder_raises (e : Env) (stocks bonds real_estate cash : Z) :
  ~ 0 <= stocks + bonds + real_estate + cash <= 100 ->
  portfolio_builder stocks bonds real_estate cash e =
  (Raised "StreamlitAPIException",
   {| risk_level := risk_level e;
      tips := tips e;
      total_alloc := stocks + bonds + real_estate + cash;
      risk_score := risk_score e;
      expected_return := expected_return e;
      volatility := volatility e;
      alloc_df := alloc_df e |}).
Proof.
  intros H. rewrite <- progress_accepts_iff in H. apply not_true_is_false in H.
  unfold portfolio_builder, bind, set_total_alloc, read, modify.
  cbn [total_alloc]. rewrite H. reflexivity.
Qed.

Lemma is_valid_banner (total : Z) (rest : list Widget) :
  is_valid (allocation_banner total :: rest) = (total =? 100).
Proof.
  unfold allocation_banner, Py.ne.
  destruct (total =? 100); reflexivity.
Qed.

(** C3: while the four sliders sum to at most 100 the page reports a valid
    allocation exactly when the sum is 100, so for (50, 30, 10, 10) and not
    for (50, 30, 10, 5), and the risk score, the risk level, the expected
    return and the volatility are computed from the slider values as they
    are: (50, 30, 10, 5) has the risk score 0.185.  A sum above 100 ends the
    run on line 276, before the banner of line 280 and before any of the four
    quantities is assigned: at (51, 30, 10, 10) nothing is shown and only
    [total_alloc], now 101, has changed. *)
Theorem allocation_total_above_100_raises :
  forall e : Env,
    (eval (portfolio_builder 51 30 10 10) e = Raised "StreamlitAPIException" /\
     boxes (eval (portfolio_builder 51 30 10 10) e) = [] /\
     exec (portfolio_builder 51 30 10 10) e =
       {| risk_level := risk_level e; tips := tips e; total_alloc := 101;
          risk_score := risk_score e; expected_return := expected_return e;
          volatility := volatility e; alloc_df := alloc_df e |}) /\
    (forall stocks bonds real_estate cash : Z,
       100 < stocks + bonds + real_estate + cash ->
       let e' := exec (portfolio_builder stocks bonds real_estate cash) e in
       eval (portfolio_builder stocks bonds real_estate cash) e
         = Raised "StreamlitAPIException" /\
       total_alloc e' = stocks + bonds + real_estate + cash /\
       risk_score e' = risk_score e /\
       risk_level e' = risk_level e /\
       expected_return e' = expected_return e /\
       volatility e' = volatility e) /\
    (forall stocks bonds real_estate cash : Z,
       0 <= stocks + bonds + real_estate + cash <= 100 ->
       let e' := exec (portfolio_builder stocks bonds real_estate cash) e in
       let shown := boxes (eval (portfolio_builder stocks bonds real_estate cash) e) in
       (is_valid shown = true <-> stocks + bonds + real_estate + cash = 100) /\
       total_alloc e' = stocks + bonds + real_estate + cash /\
       risk_score e' =
         ((stocks *. 0.6 + real_estate *. 0.3 - bonds *. 0.4 - cash *. 0.5) / 100)%float /\
       risk_level e' = portfolio_level (risk_score e') /\
       expected_return e' =
         ((stocks *. 0.08 + bonds *. 0.03 + real_estate *. 0.06 + cash *. 0.02) / 100)%float /\
       volatility e' =
         ((stocks *. 0.15 + bonds *. 0.05 + real_estate *. 0.1 + cash *. 0.01) / 100)%float) /\
    is_valid (boxes (eval (portfolio_builder 50 30 10 10) e)) = true /\
    is_valid (boxes (eval (portfolio_builder 50 30 10 5) e)) = false /\
    risk_score (exec (portfolio_builder 50 30 10 5) e) = 0.185%float.
Proof.
  intros e.
  split.
  { unfold eval, exec. rewrite portfolio_builder_raises by lia.
    repeat split. }
  split.
  { intros stocks bonds real_estate cash H. cbv zeta. unfold eval, exec.
    rewrite portfolio_builder_raises by lia. repeat split. }
  split.
  { intros stocks bonds real_estate cash H. cbv zeta.
    rewrite portfolio_builder_exec, portfolio_builder_eval by exact H.
    cbn [boxes total_alloc risk_score risk_level expected_return volatility].
    rewrite is_valid_banner.
    split; [apply Z.eqb_eq|]. repeat split. }
  rewrite !portfolio_builder_eval, portfolio_builder_exec by lia.
  repeat split.
Qed.

(** Multiplication of binary64 numbers is commutative. *)
Lemma float_mul_comm (x y : float) : (x * y)%float = (y * x)%float.
Proof.
  apply Prim2SF_inj. rewrite !mul_spec.
  unfold SF64mul, SFmul.
  destruct (Prim2SF x) as [sx|sx| |sx mx ex], (Prim2SF y) as [sy|sy| |sy my ey];
    try reflexivity; try (now rewrite (xorb_comm sx sy)).
  now rewrite (xorb_comm sx sy), (Pos.mul_comm mx my), (Z.add_comm ex ey).
Qed.

Lemma mul_if_comm (n : Z) (x : float) : (n *. x)%float = (x * Py.float_of_int n)%float.
Proof. unfold Py.mul_if. apply float_mul_comm. Qed.

(** The script's three quantities are the specification's formulas, bit for
    bit. *)
Lemma portfolio_metrics_spec (e : Env) (stocks bonds real_estate cash : Z) :
  0 <= stocks + bonds + real_estate + cash <= 100 ->
  let e' := exec (portfolio_builder stocks bonds real_estate cash) e in
  risk_score e' = Spec.riskScore stocks bonds real_estate cash /\
  expected_return e' = Spec.expectedReturn stocks bonds real_estate cash /\
  volatility e' = Spec.volatility stocks bonds real_estate cash.
Proof.
  intros H. cbv zeta. rewrite portfolio_builder_exec by exact H.
  cbn [risk_score expected_return volatility].
  unfold Spec.riskScore, Spec.expectedReturn, Spec.volatility.
  rewrite !mul_if_comm. repeat split.
Qed.

(** The ladder never answers ["Moderate"]: its middle step is ["Medium"]. *)
Lemma portfolio_level_values (score : float) :
  (portfolio_level score = "Low" \/ portfolio_level score = "Medium" \/
   portfolio_level score = "High") /\
  portfolio_level score <> "Moderate".
Proof.
  unfold portfolio_level.
  destruct (score >? 0.4)%float; [split; [tauto|discriminate]|].
  destruct (score >? 0.15)%float; (split; [tauto|discriminate]).
Qed.

(** C2: the risk level of the portfolio builder follows the ladder
    [> 0.4], [> 0.15], but its middle step is labelled ["Medium"].  With the
    sliders at their defaults (50, 30, 10, 10) the risk score is 0.16, in the
    middle band, and [risk_level] is ["Medium"], which is none of ["Low"],
    ["Moderate"], ["High"]; the alert shown for the same score is the
    "Moderate Risk" warning.  No allocation with a total from 0 to 100 gets
    ["Moderate"]. *)
Theorem portfolio_level_is_medium_not_moderate :
  forall e : Env,
    let e' := exec (portfolio_builder 50 30 10 10) e in
    let shown := boxes (eval (portfolio_builder 50 30 10 10) e) in
    risk_score e' = 0.16%float /\
    ((0.16 >? 0.4)%float = false /\ (0.16 >? 0.15)%float = true) /\
    risk_level e' = "Medium" /\
    ~ In (risk_level e') ["Low"; "Moderate"; "High"] /\
    nth 1 shown (st_info "") =
      st_warning "⚠️ Moderate Risk: Your portfolio is balanced but carries a moderate level of risk." /\
    (forall stocks bonds real_estate cash : Z,
       0 <= stocks + bonds + real_estate + cash <= 100 ->
       let e'' := exec (portfolio_builder stocks bonds real_estate cash) e in
       risk_level e'' = portfolio_level (risk_score e'') /\
       risk_level e'' <> "Moderate").
Proof.
  intros e e' shown. unfold e', shown.
  rewrite portfolio_builder_exec, portfolio_builder_eval by lia.
  split; [reflexivity|].
  split; [split; reflexivity|].
  split; [reflexivity|].
  split.
  { cbn. intros [H|[H|[H|[]]]]; discriminate H. }
  split; [reflexivity|].
  intros stocks bonds real_estate cash H. cbv zeta.
  rewrite portfolio_builder_exec by exact H. cbn [risk_level risk_score].
  split; [reflexivity|apply portfolio_level_values].
Qed.

(** C4: the risk score, the expected return and the volatility are the
    specification's three formulas for every allocation with a total from 0
    to 100, and (50, 30, 10, 10) has the risk score 0.16 and the expected
    return 0.057; the risk level there is ["Medium"], not ["Moderate"]. *)
Theorem portfolio_metrics_at_defaults :
  forall e : Env,
    (forall stocks bonds real_estate cash : Z,
       0 <= stocks + bonds + real_estate + cash <= 100 ->
       let e' := exec (portfolio_builder stocks bonds real_estate cash) e in
       risk_score e' = Spec.riskScore stocks bonds real_estate cash /\
       expected_return e' = Spec.expectedReturn stocks bonds real_estate cash /\
       volatility e' = Spec.volatility stocks bonds real_estate cash) /\
    let e' := exec (portfolio_builder 50 30 10 10) e in
    risk_score e' = 0.16%float /\
    expected_return e' = 0.057%float /\
    risk_level e' = "Medium" /\
    risk_level e' <> "Moderate".
Proof.
  intros e. split.
  - intros stocks bonds real_estate cash H. now apply portfolio_metrics_spec.
  - cbv zeta. rewrite portfolio_builder_exec by lia.
    split; [reflexivity|]. split; [reflexivity|].
    split; [reflexivity|discriminate].
Qed.

(** C7: with more than 50 in stocks the capital-gains tip is among the tax
    tips of the builder's frame, and on the page when the total is from 0 to
    100; and for (100, 0, 0, 0) the risk score is 0.6, the risk level
    ["High"], and the tip is there. *)
Theorem capital_gains_tip_above_50 :
  forall (e : Env) (stocks bonds real_estate cash : Z),
    50 < stocks ->
    In Tip.capital_gains
       (tax_efficiency_tips (make_alloc_df stocks bonds real_estate cash)) /\
    (0 <= stocks + bonds + real_estate + cash <= 100 ->
     In (st_info Tip.capital_gains)
        (boxes (eval (portfolio_builder stocks bonds real_estate cash) e))) /\
    (let e' := exec (portfolio_builder 100 0 0 0) e in
     risk_score e' = 0.6%float /\
     risk_level e' = "High" /\
     In Tip.capital_gains (tax_efficiency_tips (alloc_df e'))).
Proof.
  intros e stocks bonds real_estate cash Hs.
  assert (Hin : In Tip.capital_gains
                   (tax_efficiency_tips (make_alloc_df stocks bonds real_estate cash))).
  { apply capital_gains_when_stocks_above.
    destruct (class_above_default stocks bonds real_estate cash) as (-> & _).
    apply Z.gtb_lt. exact Hs. }
  split; [exact Hin|].
  split.
  - intros H. rewrite portfolio_builder_eval by exact H. cbn [boxes].
    right. right. apply in_map. exact Hin.
  - cbv zeta. rewrite portfolio_builder_exec by lia.
    cbn [risk_score risk_level alloc_df].
    split; [reflexivity|]. split; [reflexivity|].
    left. reflexivity.
Qed.

Lemma capital_gains_tip_above_50_witness :
  50 < 100 /\
  In Tip.capital_gains (tax_efficiency_tips (make_alloc_df 100 0 0 0)) /\
  In (st_info Tip.capital_gains) (boxes (eval (portfolio_builder 100 0 0 0) env0)).
Proof.
  split; [reflexivity|].
  destruct (capital_gains_tip_above_50 env0 100 0 0 0 eq_refl) as (H1 & H2 & _).
  split; [exact H1|].
  apply H2. split; discriminate.
Defined.

(** ** Determinism *)

(** The environment after the risk indicator: only [risk_level] is written. *)
Lemma market_risk_exec (e : Env) (inflation unemployment interest_rate : float) :
  exec (market_risk inflation unemployment interest_rate) e =
  {| risk_level := risk_level (exec (market_risk inflation unemployment interest_rate) e);
     tips := tips e;
     total_alloc := total_alloc e;
     risk_score := risk_score e;
     expected_return := expected_return e;
     volatility := volatility e;
     alloc_df := alloc_df e |}.
Proof.
  unfold market_risk.
  destruct (_ || _); [reflexivity|].
  destruct (_ && _); reflexivity.
Qed.

(** C8: no evaluator depends on what it finds.  From any two environments
    the risk indicator leaves the same [risk_level] and the portfolio builder
    ends the same way: it shows the same page and, for a total from 0 to 100,
    assigns the same values, or it raises on line 276 in both; from any two
    contents of their local list, [generate_suggestions] and
    [tax_efficiency_tips] return the same list.  A second run right after the
    first changes nothing and ends the same way; the risk indicator writes
    [risk_level] only and the portfolio builder leaves [tips] alone. *)
Theorem evaluators_deterministic :
  forall (e1 e2 : Env) (l1 l2 : list string) (goal : string)
         (gdp inflation unemployment interest_rate : float)
         (stocks bonds real_estate cash : Z) (df : DataFrame),
    let classify := market_risk inflation unemployment interest_rate in
    let advise := generate_suggestions_body goal gdp inflation unemployment interest_rate in
    let analyze := portfolio_builder stocks bonds real_estate cash in
    let tax := tax_efficiency_tips_body df in
    risk_level (exec classify e1) = risk_level (exec classify e2) /\
    eval advise l1 = eval advise l2 /\
    eval tax l1 = eval tax l2 /\
    eval analyze e1 = eval analyze e2 /\
    (0 <= stocks + bonds + real_estate + cash <= 100 ->
     portfolio_outputs (exec analyze e1) = portfolio_outputs (exec analyze e2)) /\
    exec classify (exec classify e1) = exec classify e1 /\
    exec analyze (exec analyze e1) = exec analyze e1 /\
    eval analyze (exec analyze e1) = eval analyze e1 /\
    exec classify e1 =
      {| risk_level := risk_level (exec classify e1);
         tips := tips e1;
         total_alloc := total_alloc e1;
         risk_score := risk_score e1;
         expected_return := expected_return e1;
         volatility := volatility e1;
         alloc_df := alloc_df e1 |} /\
    tips (exec analyze e1) = tips e1.
Proof.
  intros e1 e2 l1 l2 goal gdp inflation unemployment interest_rate
         stocks bonds real_estate cash df classify advise analyze tax.
  unfold classify, advise, analyze, tax.
  split; [now rewrite !market_risk_level|].
  split; [now rewrite !generate_suggestions_body_eval|].
  split; [now rewrite !tax_efficiency_tips_body_eval|].
  assert (Hrange : 0 <= stocks + bonds + real_estate + cash <= 100 \/
                   ~ 0 <= stocks + bonds + real_estate + cash <= 100) by lia.
  split.
  { destruct Hrange as [H|H].
    - now rewrite !portfolio_builder_eval by exact H.
    - unfold eval. now rewrite !portfolio_builder_raises by exact H. }
  split.
  { intros H. now rewrite !portfolio_builder_exec by exact H. }
  split.
  { rewrite (market_risk_exec (exec _ e1)), (market_risk_exec e1).
    cbn [tips total_alloc risk_score expected_return volatility alloc_df].
    now rewrite !market_risk_level. }
  split.
  { destruct Hrange as [H|H].
    - now rewrite !portfolio_builder_exec by exact H.
    - unfold exec. now rewrite !portfolio_builder_raises by exact H. }
  split.
  { destruct Hrange as [H|H].
    - now rewrite !portfolio_builder_eval by exact H.
    - unfold eval, exec. now rewrite !portfolio_builder_raises by exact H. }
  split; [apply market_risk_exec|].
  destruct Hrange as [H|H].
  - now rewrite portfolio_builder_exec by exact H.
  - unfold exec. now rewrite portfolio_builder_raises by exact H.
Qed.

(** * More of the script *)

(** ** Comparisons of binary64 numbers *)

Lemma SFcompare_antisym (x y : spec_float) :
  SFcompare y x = option_map CompOpp (SFcompare x y).
Proof.
  destruct x as [sx|sx| |sx mx ex], y as [sy|sy| |sy my ey]; cbn;
    try reflexivity;
    try (destruct sx; reflexivity); try (destruct sy; reflexivity);
    try (destruct sx, sy; reflexivity).
  destruct sx, sy; try reflexivity;
    rewrite (Z.compare_antisym ex ey);
    destruct (ex ?= ey); cbn; try reflexivity;
    rewrite !Pos.compare_cont_spec; cbn [Pos.switch_Eq];
    rewrite (Pos.compare_antisym mx my);
    destruct (mx ?= my)%positive; reflexivity.
Qed.

(** [x > c] excludes [x < c]. *)
Lemma gt_not_lt (x c : float) : (x >? c)%float = true -> (x <. c)%float = false.
Proof.
  unfold Py.gt, Py.lt. rewrite !ltb_spec. unfold SFltb.
  rewrite (SFcompare_antisym (Prim2SF c) (Prim2SF x)).
  destruct (SFcompare (Prim2SF c) (Prim2SF x)) as [[]|]; cbn; congruence.
Qed.

Lemma sf_leb_spec (ma : positive) (ea : Z) (mb : positive) (eb : Z) :
  sf_leb ma ea mb eb = true -> ea < eb \/ (ea = eb /\ (ma <= mb)%positive).
Proof.
  unfold sf_leb. intros H. apply orb_true_iff in H. destruct H as [H|H].
  - left. now apply Z.ltb_lt.
  - right. apply andb_true_iff in H. destruct H as [H1 H2].
    split; [now apply Z.eqb_eq|now apply Pos.leb_le].
Qed.

Lemma SFltb_above (ma mb : positive) (ea eb : Z) (x : spec_float) :
  sf_leb ma ea mb eb = true ->
  SFltb (S754_finite false mb eb) x = true ->
  SFltb (S754_finite false ma ea) x = true.
Proof.
  intros Hle. apply sf_leb_spec in Hle. unfold SFltb.
  destruct x as [s|s| |s m e]; cbn; try congruence.
  destruct s; [congruence|].
  rewrite !Pos.compare_cont_spec; cbn [Pos.switch_Eq].
  destruct (Z.compare_spec eb e), (Z.compare_spec ea e),
           (Pos.compare_spec mb m), (Pos.compare_spec ma m);
    try reflexivity; try discriminate;
    intros _; exfalso; destruct Hle as [|[? ?]]; lia.
Qed.

Lemma SFltb_below (ma mb : positive) (ea eb : Z) (x : spec_float) :
  sf_leb ma ea mb eb = true ->
  SFltb x (S754_finite false ma ea) = true ->
  SFltb (S754_finite false mb eb) x = false.
Proof.
  intros Hle. apply sf_leb_spec in Hle. unfold SFltb.
  destruct x as [s|s| |s m e]; cbn; try congruence.
  { destruct s; congruence. }
  destruct s; [reflexivity|].
  rewrite !Pos.compare_cont_spec; cbn [Pos.switch_Eq].
  destruct (Z.compare_spec eb e), (Z.compare_spec e ea),
           (Pos.compare_spec mb m), (Pos.compare_spec m ma);
    try reflexivity; try discriminate;
    intros _; exfalso; destruct Hle as [|[? ?]]; lia.
Qed.

(** For two positive constants [a <= b]: what is above [b] is above [a], and
    what is below [a] is not above [b]. *)
Lemma gt_weaken (a b x : float) (ma mb : positive) (ea eb : Z) :
  Prim2SF a = S754_finite false ma ea ->
  Prim2SF b = S754_finite false mb eb ->
  sf_leb ma ea mb eb = true ->
  (x >? b)%float = true -> (x >? a)%float = true.
Proof.
  unfold Py.gt. rewrite !ltb_spec. intros -> -> Hle. now apply SFltb_above.
Qed.

Lemma lt_not_gt (a b x : float) (ma mb : positive) (ea eb : Z) :
  Prim2SF a = S754_finite false ma ea ->
  Prim2SF b = S754_finite false mb eb ->
  sf_leb ma ea mb eb = true ->
  (x <. a)%float = true -> (x >? b)%float = false.
Proof.
  unfold Py.gt, Py.lt. rewrite !ltb_spec. intros -> -> Hle. now apply SFltb_below.
Qed.

(** A NaN is neither above nor below anything. *)
Lemma nan_compare (x c : float) :
  PrimFloat.is_nan x = true -> (x >? c)%float = false /\ (x <. c)%float = false.
Proof.
  unfold PrimFloat.is_nan, Py.gt, Py.lt.
  rewrite eqb_spec, !ltb_spec. unfold SFeqb, SFltb.
  destruct (Prim2SF x) as [s|s| |s m e]; cbn.
  - discriminate.
  - destruct s; discriminate.
  - intros _. destruct (Prim2SF c); split; reflexivity.
  - destruct s; rewrite Z.compare_refl, Pos.compare_cont_refl; discriminate.
Qed.

(** ** Market summary: how the rules of tab 2 relate *)

Lemma exec_seq {S A B : Type} (m : State S A) (k : State S B) (s : S) :
  exec (m ;; k) s = exec k (exec m s).
Proof. unfold exec, bind. destruct (m s). reflexivity. Qed.

(** The diversification rules assign [tips] only. *)
Lemma diversification_keeps_risk_level (e : Env) (inflation gdp_growth : float) :
  risk_level (exec (diversification inflation gdp_growth) e) = risk_level e.
Proof.
  unfold diversification.
  destruct (inflation >? 3.0)%float, (gdp_growth >? 2.5)%float; reflexivity.
Qed.

Lemma market_summary_exec
    (e : Env) (inflation gdp_growth unemployment interest_rate : float) :
  let e' := exec (market_summary inflation gdp_growth unemployment interest_rate) e in
  risk_level e' = risk_level (exec (market_risk inflation unemployment interest_rate) e) /\
  tips e' = tips (exec (diversification inflation gdp_growth) e).
Proof.
  cbv zeta. unfold market_summary. rewrite exec_seq.
  rewrite diversification_keeps_risk_level, !diversification_tips. tauto.
Qed.

(** The low thresholds lie below the high ones, metric by metric. *)
Lemma low_excludes_high (inflation unemployment interest_rate : float) :
  (inflation <. 2)%float && (unemployment <. 5)%float && (interest_rate <. 3)%float = true ->
  (inflation >? 5)%float || (unemployment >? 8)%float || (interest_rate >? 6)%float = false.
Proof.
  intros H. apply andb_true_iff in H. destruct H as [H Hr].
  apply andb_true_iff in H. destruct H as [Hi Hu].
  rewrite (lt_not_gt 2 5 inflation _ _ _ _ eq_refl eq_refl eq_refl Hi).
  rewrite (lt_not_gt 5 8 unemployment _ _ _ _ eq_refl eq_refl eq_refl Hu).
  rewrite (lt_not_gt 3 6 interest_rate _ _ _ _ eq_refl eq_refl eq_refl Hr).
  reflexivity.
Qed.

(** When the level is ["Low"] the three low tests hold. *)
Lemma market_level_low (e : Env) (inflation unemployment interest_rate : float) :
  risk_level (exec (market_risk inflation unemployment interest_rate) e) = "Low" ->
  (inflation <. 2)%float && (unemployment <. 5)%float && (interest_rate <. 3)%float = true.
Proof.
  rewrite market_risk_level.
  destruct (_ || _); [discriminate|].
  destruct (_ && _); [reflexivity|discriminate].
Qed.

(** The inflation-hedge tip is given exactly when [inflation > 3.0]. *)
Lemma inflation_hedge_given (e : Env) (inflation gdp_growth : float) :
  In Tip.inflation_hedge (tips (exec (diversification inflation gdp_growth) e)) <->
  (inflation >? 3.0)%float = true.
Proof.
  rewrite diversification_tips.
  destruct diversification_tips_distinct as (Hie & His & Hes).
  destruct (inflation >? 3.0)%float, (gdp_growth >? 2.5)%float; cbn;
    intuition (congruence || discriminate).
Qed.

(** X1: the two rules of the market risk level never hold together, for any
    three floats, so their order does not matter: the level is ["High"]
    exactly when one high test holds, ["Low"] exactly when the three low
    tests hold, and ["Moderate"] exactly when neither rule holds. *)
Theorem market_rules_exclusive :
  forall (e : Env) (inflation unemployment interest_rate : float),
    let high :=
      (inflation >? 5)%float || (unemployment >? 8)%float || (interest_rate >? 6)%float in
    let low :=
      (inflation <. 2)%float && (unemployment <. 5)%float && (interest_rate <. 3)%float in
    let level := risk_level (exec (market_risk inflation unemployment interest_rate) e) in
    high && low = false /\
    (level = "High" <-> high = true) /\
    (level = "Low" <-> low = true) /\
    (level = "Moderate" <-> high = false /\ low = false).
Proof.
  intros e inflation unemployment interest_rate high low level.
  assert (Hx : low = true -> high = false) by apply low_excludes_high.
  assert (Hl : level = if high then "High" else if low then "Low" else "Moderate")
    by apply market_risk_level.
  rewrite Hl. clear Hl level.
  destruct high, low; cbn; try (specialize (Hx eq_refl); discriminate Hx);
    repeat split; intros; try congruence; try discriminate;
    try (destruct H; congruence).
Qed.

(** X2: the risk level and the diversification tips of one market summary
    agree on inflation: when the level is ["Low"] the inflation-hedge tip is
    not given, and when [inflation > 5] the level is ["High"] and the
    inflation-hedge tip is given. *)
Theorem market_summary_inflation_consistent :
  forall (e : Env) (inflation gdp_growth unemployment interest_rate : float),
    let e' := exec (market_summary inflation gdp_growth unemployment interest_rate) e in
    (risk_level e' = "Low" -> ~ In Tip.inflation_hedge (tips e')) /\
    ((inflation >? 5)%float = true ->
     risk_level e' = "High" /\ In Tip.inflation_hedge (tips e')).
Proof.
  intros e inflation gdp_growth unemployment interest_rate e'.
  destruct (market_summary_exec e inflation gdp_growth unemployment interest_rate)
    as [Hl Ht].
  fold e' in Hl, Ht. rewrite Hl, Ht. clear Hl Ht e'.
  pose proof (inflation_hedge_given e inflation gdp_growth) as Hh.
  split.
  - intros Hlow. apply market_level_low in Hlow.
    apply andb_true_iff in Hlow. destruct Hlow as [Hlow _].
    apply andb_true_iff in Hlow. destruct Hlow as [Hi _].
    intros Hin. apply Hh in Hin.
    rewrite (lt_not_gt 2 3 inflation _ _ _ _ eq_refl eq_refl eq_refl Hi) in Hin.
    discriminate Hin.
  - intros Hi. split.
    + rewrite market_risk_level, Hi. reflexivity.
    + apply Hh. exact (gt_weaken 3 5 inflation _ _ _ _ eq_refl eq_refl eq_refl Hi).
Qed.

Lemma market_summary_inflation_consistent_witness :
  ~ In Tip.inflation_hedge (tips (exec (market_summary 1 1 1 1) env0)) /\
  risk_level (exec (market_summary 6 1 1 1) env0) = "High" /\
  In Tip.inflation_hedge (tips (exec (market_summary 6 1 1 1) env0)).
Proof.
  split.
  - apply (market_summary_inflation_consistent env0 1 1 1 1). reflexivity.
  - apply (market_summary_inflation_consistent env0 6 1 1 1). reflexivity.
Defined.

(** X3: a row whose indicators are missing is read as NaN, and no rule fires
    on a NaN: when inflation, unemployment and interest rate are missing the
    level is ["Moderate"], whatever GDP growth is; when inflation and GDP
    growth are missing the only tip is the stable-market one, whatever the
    two other indicators are. *)
Theorem market_summary_missing_values :
  forall (e : Env) (inflation gdp_growth unemployment interest_rate : float),
    let e' := exec (market_summary inflation gdp_growth unemployment interest_rate) e in
    (PrimFloat.is_nan inflation = true ->
     PrimFloat.is_nan unemployment = true ->
     PrimFloat.is_nan interest_rate = true ->
     risk_level e' = "Moderate") /\
    (PrimFloat.is_nan inflation = true ->
     PrimFloat.is_nan gdp_growth = true ->
     tips e' = [Tip.stable_market]).
Proof.
  intros e inflation gdp_growth unemployment interest_rate e'.
  destruct (market_summary_exec e inflation gdp_growth unemployment interest_rate)
    as [Hl Ht].
  fold e' in Hl, Ht. rewrite Hl, Ht, market_risk_level, diversification_tips.
  split.
  - intros Hi Hu Hr.
    destruct (nan_compare inflation 5 Hi) as [-> _].
    destruct (nan_compare unemployment 8 Hu) as [-> _].
    destruct (nan_compare interest_rate 6 Hr) as [-> _].
    destruct (nan_compare inflation 2 Hi) as [_ ->].
    reflexivity.
  - intros Hi Hg.
    destruct (nan_compare inflation 3.0 Hi) as [-> _].
    destruct (nan_compare gdp_growth 2.5 Hg) as [-> _].
    reflexivity.
Qed.

Lemma market_summary_missing_values_witness :
  risk_level (exec (market_summary nan 3 nan nan) env0) = "Moderate" /\
  tips (exec (market_summary nan nan 9 7) env0) = [Tip.stable_market].
Proof.
  split.
  - apply (market_summary_missing_values env0 nan 3 nan nan); reflexivity.
  - apply (market_summary_missing_values env0 nan nan 9 7); reflexivity.
Defined.

(** ** Goal-based suggestions: the other branches *)

(** The answer of [generate_suggestions], branch by branch. *)
Lemma generate_suggestions_cases
    (goal : string) (gdp inflation unemployment interest_rate : float) :
  generate_suggestions goal gdp inflation unemployment interest_rate =
  if (goal =? "Retirement")%string then
    [Tip.retirement_base;
     if (inflation >? 4)%float then Tip.retirement_inflation else Tip.retirement_balanced]
  else if (goal =? "Buying a Home")%string then
    [Tip.home_base;
     if (interest_rate >? 5)%float then Tip.home_rates_high else Tip.home_rates_low]
  else if (goal =? "Wealth Growth")%string then
    [Tip.growth_base;
     if (gdp >? 2)%float && (inflation <. 4)%float then Tip.growth_strong
     else Tip.growth_diversify]
  else [Tip.placeholder].
Proof.
  unfold generate_suggestions, call, generate_suggestions_body.
  destruct (goal =? "Retirement")%string.
  { destruct (inflation >? 4)%float; reflexivity. }
  destruct (goal =? "Buying a Home")%string.
  { destruct (interest_rate >? 5)%float; reflexivity. }
  destruct (goal =? "Wealth Growth")%string; [|reflexivity].
  destruct ((gdp >? 2)%float && (inflation <. 4)%float); reflexivity.
Qed.

(** Case analysis on the goal: one of the three advised goals, or another. *)
Lemma goal_cases (goal : string) :
  goal = "Retirement" \/ goal = "Buying a Home" \/ goal = "Wealth Growth" \/
  ((goal =? "Retirement")%string = false /\
   (goal =? "Buying a Home")%string = false /\
   (goal =? "Wealth Growth")%string = false).
Proof.
  destruct (String.eqb_spec goal "Retirement"); [tauto|].
  destruct (String.eqb_spec goal "Buying a Home"); [tauto|].
  destruct (String.eqb_spec goal "Wealth Growth"); tauto.
Qed.

(** X4: an advice list is never empty: it has two tips for the three advised
    goals and is the placeholder alone for every other goal; of the five
    goals the sidebar offers, the first three get two tips and the last two
    get one. *)
Theorem advice_shape :
  forall (goal : string) (gdp inflation unemployment interest_rate : float),
    let advice := generate_suggestions goal gdp inflation unemployment interest_rate in
    ((In goal advised_goals /\ List.length advice = 2%nat) \/
     (~ In goal advised_goals /\ advice = [Tip.placeholder])) /\
    map (fun g => List.length
                    (generate_suggestions g gdp inflation unemployment interest_rate))
        goal_options = [2; 2; 2; 1; 1]%nat.
Proof.
  intros goal gdp inflation unemployment interest_rate advice. unfold advice.
  split.
  - rewrite generate_suggestions_cases.
    destruct (goal_cases goal) as [-> | [-> | [-> | (Hr & Hb & Hw)]]].
    + left. split; [cbn; tauto|reflexivity].
    + left. split; [cbn; tauto|reflexivity].
    + left. split; [cbn; tauto|reflexivity].
    + right. rewrite Hr, Hb, Hw. split; [|reflexivity].
      apply String.eqb_neq in Hr, Hb, Hw.
      cbn. intros [H | [H | [H | []]]]; congruence.
  - cbn [map goal_options]. rewrite !generate_suggestions_cases. reflexivity.
Qed.

(** X5: which indicator an advice depends on.  The unemployment rate never
    changes it; retirement advice depends on inflation only, home advice on
    the interest rate only, growth advice on GDP growth and inflation only. *)
Theorem advice_dependencies :
  forall (goal : string) (gdp inflation unemployment interest_rate : float)
         (gdp' inflation' unemployment' interest_rate' : float),
    generate_suggestions goal gdp inflation unemployment interest_rate =
    generate_suggestions goal gdp inflation unemployment' interest_rate /\
    generate_suggestions "Retirement" gdp inflation unemployment interest_rate =
    generate_suggestions "Retirement" gdp' inflation unemployment' interest_rate' /\
    generate_suggestions "Buying a Home" gdp inflation unemployment interest_rate =
    generate_suggestions "Buying a Home" gdp' inflation' unemployment' interest_rate /\
    generate_suggestions "Wealth Growth" gdp inflation unemployment interest_rate =
    generate_suggestions "Wealth Growth" gdp inflation unemployment' interest_rate'.
Proof.
  intros. rewrite !generate_suggestions_cases. repeat split.
Qed.

(** X6: each conditional tip is given for its own goal and under its own
    test only, whatever the goal string is: the inflation-protection tip for
    ["Retirement"] with [inflation > 4], the two mortgage tips for
    ["Buying a Home"] according to [interest_rate > 5], the two growth tips
    for ["Wealth Growth"] according to [gdp > 2 and inflation < 4]. *)
Theorem conditional_tips_given :
  forall (goal : string) (gdp inflation unemployment interest_rate : float),
    let advice := generate_suggestions goal gdp inflation unemployment interest_rate in
    (In Tip.retirement_inflation advice <->
       goal = "Retirement" /\ (inflation >? 4)%float = true) /\
    (In Tip.home_rates_high advice <->
       goal = "Buying a Home" /\ (interest_rate >? 5)%float = true) /\
    (In Tip.home_rates_low advice <->
       goal = "Buying a Home" /\ (interest_rate >? 5)%float = false) /\
    (In Tip.growth_strong advice <->
       goal = "Wealth Growth" /\ (gdp >? 2)%float = true /\ (inflation <. 4)%float = true) /\
    (In Tip.growth_diversify advice <->
       goal = "Wealth Growth" /\ (gdp >? 2)%float && (inflation <. 4)%float = false).
Proof.
  intros goal gdp inflation unemployment interest_rate advice. unfold advice.
  rewrite generate_suggestions_cases.
  destruct (goal_cases goal) as [-> | [-> | [-> | (Hr & Hb & Hw)]]].
  - cbn [String.eqb Ascii.eqb Bool.eqb].
    destruct (inflation >? 4)%float; cbn;
      intuition (discriminate || congruence).
  - cbn [String.eqb Ascii.eqb Bool.eqb].
    destruct (interest_rate >? 5)%float; cbn;
      intuition (discriminate || congruence).
  - cbn [String.eqb Ascii.eqb Bool.eqb].
    destruct (gdp >? 2)%float, (inflation <. 4)%float; cbn;
      intuition (discriminate || congruence).
  - rewrite Hr, Hb, Hw.
    apply String.eqb_neq in Hr, Hb, Hw.
    cbn; intuition (discriminate || congruence).
Qed.

(** X7: for the same indicators, when the retirement advice recommends
    inflation protection the growth advice is to diversify, never the
    strong-economy tip. *)
Theorem inflation_protection_excludes_growth :
  forall gdp inflation unemployment interest_rate : float,
    In Tip.retirement_inflation
       (generate_suggestions "Retirement" gdp inflation unemployment interest_rate) ->
    generate_suggestions "Wealth Growth" gdp inflation unemployment interest_rate =
      [Tip.growth_base; Tip.growth_diversify].
Proof.
  intros gdp inflation unemployment interest_rate.
  rewrite !generate_suggestions_cases.
  cbn [String.eqb Ascii.eqb Bool.eqb].
  destruct (inflation >? 4)%float eqn:Hi.
  - intros _. rewrite (gt_not_lt inflation 4 Hi), andb_false_r. reflexivity.
  - cbn. intros [H|[H|[]]]; discriminate H.
Qed.

Lemma inflation_protection_excludes_growth_witness :
  generate_suggestions "Wealth Growth" 3 5 1 1 = [Tip.growth_base; Tip.growth_diversify].
Proof.
  apply (inflation_protection_excludes_growth 3 5 1 1).
  right. left. reflexivity.
Defined.

(** ** Tax tips on any data frame *)

#[local] Open Scope list_scope.

(** The answer of [tax_efficiency_tips]: the tips of the rules that fire, in
    rule order, or the fallback when none does. *)
Lemma tax_efficiency_tips_cases (df : DataFrame) :
  tax_efficiency_tips df =
  match class_above "Stocks" 50 df, class_above "Municipal Bonds" 0 df,
        class_above "High Turnover Funds" 10 df with
  | false, false, false => [Tip.tax_efficient]
  | s, m, h =>
      ((if s then [Tip.capital_gains] else []) ++
       (if m then [Tip.municipal_bonds] else []) ++
       (if h then [Tip.high_turnover] else []))%list
  end.
Proof.
  unfold tax_efficiency_tips, call, tax_efficiency_tips_body.
  destruct (class_above "Stocks" 50 df), (class_above "Municipal Bonds" 0 df),
           (class_above "High Turnover Funds" 10 df); reflexivity.
Qed.

(** X8: for every data frame the tax tips are between one and three; each of
    the three rule tips is given exactly when its rule fires, the fallback
    exactly when no rule fires, and then it is the only tip. *)
Theorem tax_tips_rules :
  forall df : DataFrame,
    let l := tax_efficiency_tips df in
    (In Tip.capital_gains l <-> class_above "Stocks" 50 df = true) /\
    (In Tip.municipal_bonds l <-> class_above "Municipal Bonds" 0 df = true) /\
    (In Tip.high_turnover l <-> class_above "High Turnover Funds" 10 df = true) /\
    (In Tip.tax_efficient l <->
       class_above "Stocks" 50 df = false /\
       class_above "Municipal Bonds" 0 df = false /\
       class_above "High Turnover Funds" 10 df = false) /\
    (In Tip.tax_efficient l -> l = [Tip.tax_efficient]) /\
    (1 <= List.length l <= 3)%nat.
Proof.
  intros df l. unfold l. rewrite tax_efficiency_tips_cases.
  destruct (class_above "Stocks" 50 df), (class_above "Municipal Bonds" 0 df),
           (class_above "High Turnover Funds" 10 df); cbn;
    (split; [|split; [|split; [|split; [|split; [|lia]]]]]);
    intuition (discriminate || congruence).
Qed.

Lemma existsb_false_filter {A} (f : A -> bool) (l : list A) :
  existsb f l = false -> filter f l = [].
Proof.
  induction l as [|a l IH]; cbn; [reflexivity|].
  destruct (f a); cbn; [discriminate|exact IH].
Qed.

(** The first row of a class is the one a rule reads. *)
Lemma class_above_first_row
    (name : string) (bound v : Z) (before after : DataFrame) :
  has_class name before = false ->
  class_above name bound (before ++ (name, v) :: after) = (v >? bound).
Proof.
  intros Hb. unfold class_above, has_class, allocations_of.
  unfold has_class in Hb.
  rewrite existsb_app, filter_app, (existsb_false_filter _ _ Hb), Hb.
  cbn. rewrite String.eqb_refl. reflexivity.
Qed.

(** X9: when a frame has several rows of one class, the first row decides
    and the later ones are ignored: if no row before it is a ["Stocks"] row,
    the row [("Stocks", v)] gives the capital-gains tip exactly when
    [v > 50], whatever follows. *)
Theorem first_stocks_row_decides :
  forall (v : Z) (before after : DataFrame),
    has_class "Stocks" before = false ->
    (In Tip.capital_gains (tax_efficiency_tips (before ++ ("Stocks", v) :: after))
     <-> 50 < v).
Proof.
  intros v before after Hb.
  rewrite tax_efficiency_tips_cases, (class_above_first_row "Stocks" 50 v _ _ Hb).
  rewrite <- Z.gtb_lt.
  destruct (v >? 50),
           (class_above "Municipal Bonds" 0 (before ++ ("Stocks", v) :: after)),
           (class_above "High Turnover Funds" 10 (before ++ ("Stocks", v) :: after));
    cbn; intuition (discriminate || congruence).
Qed.

Lemma first_stocks_row_decides_witness :
  ~ In Tip.capital_gains
       (tax_efficiency_tips [("Bonds", 0); ("Stocks", 10); ("Stocks", 90)]) /\
  In Tip.capital_gains
     (tax_efficiency_tips [("Bonds", 0); ("Stocks", 90); ("Stocks", 10)]).
Proof.
  split.
  - intros H.
    apply (first_stocks_row_decides 10 [("Bonds", 0)] [("Stocks", 90)] eq_refl) in H.
    discriminate H.
  - apply (first_stocks_row_decides 90 [("Bonds", 0)] [("Stocks", 10)] eq_refl).
    reflexivity.
Defined.

(** A row of another class does not change what a rule reads. *)
Lemma class_above_other_row
    (name other : string) (bound v : Z) (before after : DataFrame) :
  other <> name ->
  class_above name bound (before ++ (other, v) :: after) =
  class_above name bound (before ++ after).
Proof.
  intros Hn. apply String.eqb_neq in Hn.
  unfold class_above, has_class, allocations_of.
  rewrite !existsb_app, !filter_app. cbn. rewrite Hn. reflexivity.
Qed.

(** X10: rows of classes that no rule names never matter: adding or removing
    a row whose class is none of ["Stocks"], ["Municipal Bonds"] and
    ["High Turnover Funds"] anywhere in the frame leaves the tax tips as they
    are.  So the bonds, real-estate and cash sliders have no effect on them. *)
Theorem other_rows_do_not_matter :
  forall (other : string) (v : Z) (before after : DataFrame),
    other <> "Stocks" -> other <> "Municipal Bonds" -> other <> "High Turnover Funds" ->
    tax_efficiency_tips (before ++ (other, v) :: after) =
    tax_efficiency_tips (before ++ after).
Proof.
  intros other v before after Hs Hm Hh.
  rewrite !tax_efficiency_tips_cases.
  rewrite (class_above_other_row "Stocks" other 50 v before after Hs).
  rewrite (class_above_other_row "Municipal Bonds" other 0 v before after Hm).
  rewrite (class_above_other_row "High Turnover Funds" other 10 v before after Hh).
  reflexivity.
Qed.

Lemma other_rows_do_not_matter_witness :
  tax_efficiency_tips (make_alloc_df 60 20 10 10) = tax_efficiency_tips [("Stocks", 60)].
Proof.
  transitivity (tax_efficiency_tips [("Stocks", 60); ("Real Estate", 10); ("Cash", 10)]).
  { apply (other_rows_do_not_matter "Bonds" 20 [("Stocks", 60)]
             [("Real Estate", 10); ("Cash", 10)]); discriminate. }
  transitivity (tax_efficiency_tips [("Stocks", 60); ("Cash", 10)]).
  { apply (other_rows_do_not_matter "Real Estate" 10 [("Stocks", 60)] [("Cash", 10)]);
      discriminate. }
  apply (other_rows_do_not_matter "Cash" 10 [("Stocks", 60)] []); discriminate.
Defined.

(** ** Authentication *)

(** X11: the login check accepts exactly the two pairs of [users]: the user
    name and the password must both match, byte for byte. *)
Theorem credentials_ok_iff :
  forall username password : string,
    credentials_ok username password = true <->
    (username = "admin" /\ password = "123#") \/
    (username = "user" /\ password = "123*").
Proof.
  intros username password. unfold credentials_ok, dict_get, users.
  cbn [find fst].
  destruct (String.eqb_spec "admin" username) as [<-|Ha]; cbn [find fst option_map snd].
  { rewrite String.eqb_eq. split; [intros <-; tauto|].
    intros [[_ H]|[H _]]; [now symmetry|discriminate H]. }
  destruct (String.eqb_spec "user" username) as [<-|Hu]; cbn [find fst option_map snd].
  { rewrite String.eqb_eq. split; [intros <-; tauto|].
    intros [[H _]|[_ H]]; [discriminate H|now symmetry]. }
  split; [discriminate|]. intros [[H _]|[H _]]; congruence.
Qed.

(** One run of the login block, case by case. *)
Lemma login_gate_run (username password : string) (clicked : bool) (s : Session) :
  login_gate username password clicked s =
  match s with
  | Some true => (Proceed, Some true)
  | _ =>
      if clicked then
        if credentials_ok username password then (Rerun, Some true)
        else (Stopped [st_error login_error], Some false)
      else (Stopped [], Some false)
  end.
Proof.
  unfold login_gate.
  destruct s as [[|]|], clicked, (credentials_ok username password); reflexivity.
Qed.

(** X12: a run of the script goes past the login block exactly when the
    session was authenticated before the run; the run in which the right
    password is given asks for a rerun instead.  After the run the session is
    authenticated exactly when it was before or the button was pressed on an
    accepted pair, and the key ["authenticated"] is always set. *)
Theorem login_gate_behaviour :
  forall (username password : string) (clicked : bool) (s : Session),
    let o := eval (login_gate username password clicked) s in
    let s' := exec (login_gate username password clicked) s in
    (o = Proceed <-> s = Some true) /\
    (o = Rerun <->
       s <> Some true /\ clicked = true /\ credentials_ok username password = true) /\
    (s' = Some true <->
       s = Some true \/ (clicked = true /\ credentials_ok username password = true)) /\
    s' <> None.
Proof.
  intros username password clicked s o s'. unfold o, s', eval, exec.
  rewrite login_gate_run.
  destruct s as [[|]|], clicked, (credentials_ok username password); cbn;
    intuition (discriminate || congruence).
Qed.

(** One interaction, case by case. *)
Lemma visit_run (username password : string) (clicked : bool) (s : Session) :
  visit username password clicked s =
  match s with
  | Some true => (Proceed, Some true)
  | _ =>
      if clicked then
        if credentials_ok username password then (Proceed, Some true)
        else (Stopped [st_error login_error], Some false)
      else (Stopped [], Some false)
  end.
Proof.
  unfold visit, bind. rewrite login_gate_run.
  destruct s as [[|]|], clicked, (credentials_ok username password);
    try reflexivity; rewrite login_gate_run; reflexivity.
Qed.

Lemma visits_authenticated (l : list (string * string * bool)) :
  visits l (Some true) = (map (fun _ => Proceed) l, Some true).
Proof.
  induction l as [|[[u p] c] l IH]; [reflexivity|].
  cbn [visits map]. unfold bind. rewrite visit_run, IH. reflexivity.
Qed.

Lemma visits_session (l : list (string * string * bool)) (s : Session) :
  exec (visits l) s = Some true <-> s = Some true \/ existsb logs_in l = true.
Proof.
  revert s. induction l as [|[[u p] c] l IH]; intros s.
  - cbn. intuition discriminate.
  - unfold exec in IH. unfold exec. cbn [visits existsb logs_in]. unfold bind.
    rewrite visit_run.
    destruct s as [[|]|], c, (credentials_ok u p); cbn [andb orb];
      try (rewrite visits_authenticated; cbn; tauto);
      specialize (IH (Some false));
      destruct (visits l (Some false)) as [os s'']; cbn in *;
      rewrite IH; intuition discriminate.
Qed.

(** X13: over any sequence of interactions the session ends authenticated
    exactly when it started so or one interaction pressed the button on an
    accepted pair; nothing ever logs out: from an authenticated session every
    interaction reaches the page, whatever is typed. *)
Theorem session_stays_authenticated :
  forall (l : list (string * string * bool)) (s : Session),
    (exec (visits l) s = Some true <-> s = Some true \/ existsb logs_in l = true) /\
    eval (visits l) (Some true) = map (fun _ => Proceed) l /\
    exec (visits l) (Some true) = Some true.
Proof.
  intros l s. split; [apply visits_session|].
  unfold eval, exec. rewrite visits_authenticated. split; reflexivity.
Qed.

(** ** Portfolio builder: alert, valid allocations, and the report *)

(** The alert box tells the band of the score, as [portfolio_level] does. *)
Lemma risk_alert_level (score : float) :
  (portfolio_level score = "High" <->
     risk_alert score =
     st_error "⚠️ High Risk Alert: Your portfolio allocation is aggressive and may see high volatility.") /\
  (portfolio_level score = "Medium" <->
     risk_alert score =
     st_warning "⚠️ Moderate Risk: Your portfolio is balanced but carries a moderate level of risk.") /\
  (portfolio_level score = "Low" <->
     risk_alert score =
     st_success "✅ Low Risk: Your portfolio is conservative and prioritizes capital preservation.").
Proof.
  unfold portfolio_level, risk_alert.
  destruct (score >? 0.4)%float; [|destruct (score >? 0.15)%float];
    (split; [|split]); split; intros H; try reflexivity; discriminate H.
Qed.

(** X14: for every allocation with a total from 0 to 100 the alert box
    shown under the summary is the one of the band that [risk_level] names:
    the High Risk error for ["High"], the Moderate Risk warning for
    ["Medium"], the Low Risk success for ["Low"]; it is the second status box
    of the page.  For any other total the run ends on line 276: no box is
    shown and [risk_level] keeps the value it had. *)
Theorem alert_matches_level :
  forall (e : Env) (stocks bonds real_estate cash : Z),
    let e' := exec (portfolio_builder stocks bonds real_estate cash) e in
    let shown := boxes (eval (portfolio_builder stocks bonds real_estate cash) e) in
    let alert := nth 1 shown (st_info "") in
    (0 <= stocks + bonds + real_estate + cash <= 100 ->
     alert = risk_alert (risk_score e') /\
     (risk_level e' = "High" <->
        alert =
        st_error "⚠️ High Risk Alert: Your portfolio allocation is aggressive and may see high volatility.") /\
     (risk_level e' = "Medium" <->
        alert =
        st_warning "⚠️ Moderate Risk: Your portfolio is balanced but carries a moderate level of risk.") /\
     (risk_level e' = "Low" <->
        alert =
        st_success "✅ Low Risk: Your portfolio is conservative and prioritizes capital preservation.")) /\
    (~ 0 <= stocks + bonds + real_estate + cash <= 100 ->
     shown = [] /\ risk_level e' = risk_level e).
Proof.
  intros e stocks bonds real_estate cash e' shown alert.
  unfold alert, shown, e'. split; intros H.
  - rewrite portfolio_builder_exec, portfolio_builder_eval by exact H.
    cbn [boxes nth risk_score risk_level].
    split; [reflexivity|apply risk_alert_level].
  - unfold eval, exec. rewrite portfolio_builder_raises by exact H.
    split; reflexivity.
Qed.

Lemma alert_matches_level_witness :
  nth 1 (boxes (eval (portfolio_builder 50 30 10 10) env0)) (st_info "") =
    risk_alert (risk_score (exec (portfolio_builder 50 30 10 10) env0)) /\
  boxes (eval (portfolio_builder 51 30 10 10) env0) = [] /\
  risk_level (exec (portfolio_builder 51 30 10 10) env0) = risk_level env0.
Proof.
  split.
  - destruct (alert_matches_level env0 50 30 10 10) as (H & _).
    destruct H as (H & _); [lia|]. exact H.
  - destruct (alert_matches_level env0 51 30 10 10) as (_ & H).
    apply H. lia.
Defined.

Lemma forall_valid_spec (P : nat -> nat -> nat -> nat -> bool) :
  forall_valid P = true ->
  forall s b r c : nat, (s + b + r + c = 100)%nat -> P s b r c = true.
Proof.
  unfold forall_valid. intros H s b r c Hsum.
  rewrite forallb_forall in H.
  specialize (H s). rewrite in_seq, forallb_forall in H.
  specialize (H ltac:(lia) b). rewrite in_seq, forallb_forall in H.
  specialize (H ltac:(lia) r). rewrite in_seq in H.
  specialize (H ltac:(lia)).
  replace c with (100 - s - b - r)%nat by lia. exact H.
Qed.

Lemma slider_float_spec (n : nat) :
  (n <= 100)%nat -> slider_float n = Py.float_of_int (Z.of_nat n).
Proof.
  intros Hn.
  do 101 (destruct n as [|n]; [reflexivity|]).
  exfalso. lia.
Qed.

Lemma bounds_check_all : forall_valid bounds_check = true.
Proof. vm_compute. reflexivity. Qed.

Lemma rounding_check_all : forall_valid rounding_check = true.
Proof. vm_compute. reflexivity. Qed.

(** The portfolio builder's three quantities from the floats of the sliders. *)
Lemma portfolio_builder_of (e : Env) (s b r c : nat) :
  let e' := exec (portfolio_builder (Z.of_nat s) (Z.of_nat b) (Z.of_nat r) (Z.of_nat c)) e in
  (s + b + r + c = 100)%nat ->
  risk_score e' = risk_score_of (slider_float s) (slider_float b)
                                (slider_float r) (slider_float c) /\
  expected_return e' = expected_return_of (slider_float s) (slider_float b)
                                          (slider_float r) (slider_float c) /\
  volatility e' = volatility_of (slider_float s) (slider_float b)
                                (slider_float r) (slider_float c).
Proof.
  cbv zeta. intros Hsum. rewrite portfolio_builder_exec by lia.
  rewrite !slider_float_spec by lia.
  repeat split.
Qed.

(** X15: for the slider values of a valid allocation (none negative, sum
    100) the binary64 results stay in the ranges of the formulas: the risk
    score is between -0.5 (all cash) and 0.6 (all stocks), the expected
    return between 0.02 and 0.08, the volatility between 0.01 and 0.15. *)
Theorem valid_allocation_bounds :
  forall (e : Env) (stocks bonds real_estate cash : Z),
    0 <= stocks -> 0 <= bonds -> 0 <= real_estate -> 0 <= cash ->
    stocks + bonds + real_estate + cash = 100 ->
    let e' := exec (portfolio_builder stocks bonds real_estate cash) e in
    (PrimFloat.leb (-0.5) (risk_score e') = true /\
     PrimFloat.leb (risk_score e') 0.6 = true) /\
    (PrimFloat.leb 0.02 (expected_return e') = true /\
     PrimFloat.leb (expected_return e') 0.08 = true) /\
    (PrimFloat.leb 0.01 (volatility e') = true /\
     PrimFloat.leb (volatility e') 0.15 = true).
Proof.
  intros e stocks bonds real_estate cash Hs Hb Hr Hc Hsum e'.
  assert (Hn : (Z.to_nat stocks + Z.to_nat bonds + Z.to_nat real_estate
                + Z.to_nat cash = 100)%nat) by lia.
  pose proof (forall_valid_spec _ bounds_check_all _ _ _ _ Hn) as H.
  destruct (portfolio_builder_of e _ _ _ _ Hn) as (Hrs & Her & Hv).
  rewrite !Z2Nat.id in Hrs, Her, Hv by assumption.
  fold e' in Hrs, Her, Hv. rewrite Hrs, Her, Hv.
  unfold bounds_check in H. cbv zeta in H.
  repeat (apply andb_true_iff in H; destruct H as [H ?]).
  tauto.
Qed.

Lemma valid_allocation_bounds_witness :
  PrimFloat.leb (risk_score (exec (portfolio_builder 0 0 0 100) env0)) 0.6 = true /\
  PrimFloat.leb 0.02 (expected_return (exec (portfolio_builder 0 0 0 100) env0)) = true.
Proof.
  destruct (valid_allocation_bounds env0 0 0 0 100) as ((_ & H1) & (H2 & _) & _);
    try reflexivity; try discriminate.
  split; assumption.
Defined.

(** X16: for the slider values of a valid allocation, rounding changes the
    risk level only on a threshold: when
    [6*stocks + 3*real_estate - 4*bonds - 5*cash] is neither 150 nor 400
    (the score is neither 0.15 nor 0.4) the level is the one exact
    arithmetic gives.  On a threshold it can be one step higher:
    (71, 7, 14, 8) has the exact score 0.4, which is not above 0.4, and
    gets ["High"]. *)
Theorem risk_level_rounding :
  forall e : Env,
    (forall stocks bonds real_estate cash : Z,
       0 <= stocks -> 0 <= bonds -> 0 <= real_estate -> 0 <= cash ->
       stocks + bonds + real_estate + cash = 100 ->
       6 * stocks + 3 * real_estate - 4 * bonds - 5 * cash <> 150 ->
       6 * stocks + 3 * real_estate - 4 * bonds - 5 * cash <> 400 ->
       risk_level (exec (portfolio_builder stocks bonds real_estate cash) e) =
       exact_level stocks bonds real_estate cash) /\
    (71 + 7 + 14 + 8 = 100 /\
     6 * 71 + 3 * 14 - 4 * 7 - 5 * 8 = 400 /\
     exact_level 71 7 14 8 = "Medium" /\
     risk_level (exec (portfolio_builder 71 7 14 8) e) = "High").
Proof.
  intros e. split.
  - intros stocks bonds real_estate cash Hs Hb Hr Hc Hsum H150 H400.
    assert (Hn : (Z.to_nat stocks + Z.to_nat bonds + Z.to_nat real_estate
                  + Z.to_nat cash = 100)%nat) by lia.
    pose proof (forall_valid_spec _ rounding_check_all _ _ _ _ Hn) as H.
    destruct (portfolio_builder_of e _ _ _ _ Hn) as (Hrs & _).
    unfold rounding_check in H. cbv zeta in H.
    rewrite !Z2Nat.id in H, Hrs by assumption.
    rewrite portfolio_builder_exec in Hrs by lia.
    rewrite portfolio_builder_exec by lia.
    cbn [risk_score] in Hrs. cbn [risk_level]. rewrite Hrs.
    apply orb_true_iff in H. destruct H as [H|H]; [|now apply String.eqb_eq].
    apply orb_true_iff in H. destruct H as [H|H]; apply Z.eqb_eq in H; contradiction.
  - rewrite portfolio_builder_exec by lia. repeat split.
Qed.

Lemma risk_level_rounding_witness :
  risk_level (exec (portfolio_builder 50 30 10 10) env0) = exact_level 50 30 10 10.
Proof.
  apply (risk_level_rounding env0); try discriminate; reflexivity.
Defined.

(** X17: in a run of tabs 2 and 3 with a total from 0 to 100 the portfolio
    builder overwrites the market's [risk_level]: afterwards the variable
    holds the portfolio's level, so it is never ["Moderate"], and the line of
    the report that prints it shows the portfolio's level.  With any other
    total the run ends on line 276, before the report, and [risk_level] still
    holds the market's level.  Either way the diversification tips of tab 2
    are still in [tips]. *)
Theorem report_shows_portfolio_level :
  forall (e : Env) (inflation gdp_growth unemployment interest_rate : float)
         (stocks bonds real_estate cash : Z),
    let run := tabs_2_3 inflation gdp_growth unemployment interest_rate
                        stocks bonds real_estate cash in
    let e' := exec run e in
    (0 <= stocks + bonds + real_estate + cash <= 100 ->
     risk_level e' = portfolio_level (risk_score e') /\
     risk_level e' <> "Moderate" /\
     report_risk_line e' =
       ("- Risk Level: "
        ++ risk_level (exec (portfolio_builder stocks bonds real_estate cash) e))%string) /\
    (~ 0 <= stocks + bonds + real_estate + cash <= 100 ->
     eval run e = Raised "StreamlitAPIException" /\
     risk_level e' =
       risk_level (exec (market_risk inflation unemployment interest_rate) e)) /\
    tips e' = tips (exec (diversification inflation gdp_growth) e).
Proof.
  intros e inflation gdp_growth unemployment interest_rate
         stocks bonds real_estate cash run e'.
  pose proof (market_summary_exec e inflation gdp_growth unemployment interest_rate)
    as [Hl Ht]. cbv zeta in Hl, Ht.
  assert (Hexec : e' = exec (portfolio_builder stocks bonds real_estate cash)
                    (exec (market_summary inflation gdp_growth unemployment
                                          interest_rate) e))
    by apply exec_seq.
  assert (Heval : eval run e = eval (portfolio_builder stocks bonds real_estate cash)
                    (exec (market_summary inflation gdp_growth unemployment
                                          interest_rate) e)).
  { unfold run, tabs_2_3, eval, exec, bind.
    destruct (market_summary _ _ _ _ e). reflexivity. }
  rewrite Heval, Hexec. clear Heval Hexec e' run.
  assert (Hrange : 0 <= stocks + bonds + real_estate + cash <= 100 \/
                   ~ 0 <= stocks + bonds + real_estate + cash <= 100) by lia.
  split; [|split].
  - intros H. unfold report_risk_line.
    rewrite !portfolio_builder_exec by exact H. cbn [risk_level risk_score].
    split; [reflexivity|]. split; [apply portfolio_level_values|reflexivity].
  - intros H. unfold eval, exec. rewrite portfolio_builder_raises by exact H.
    cbn [fst snd risk_level]. split; [reflexivity|exact Hl].
  - destruct Hrange as [H|H].
    + rewrite portfolio_builder_exec by exact H. exact Ht.
    + unfold exec. rewrite portfolio_builder_raises by exact H. exact Ht.
Qed.

Lemma report_shows_portfolio_level_witness :
  report_risk_line (exec (tabs_2_3 3 3 3 3 50 30 10 10) env0) = "- Risk Level: Medium" /\
  risk_level (exec (tabs_2_3 3 3 3 3 100 100 0 0) env0) = "Moderate".
Proof.
  split.
  - destruct (report_shows_portfolio_level env0 3 3 3 3 50 30 10 10) as (H & _).
    destruct H as (_ & _ & H); [lia|]. exact H.
  - destruct (report_shows_portfolio_level env0 3 3 3 3 100 100 0 0) as (_ & H & _).
    destruct H as (_ & H); [lia|]. exact H.
Defined.
